(** * Koda: the artisan backend template (backend.main.py)

    A shallow embedding of [kodarch/templates/artisan/backend.main.py]:

<<
    from fastapi import FastAPI

    app = FastAPI(title="{{PROJECT_NAME}} API")


    @app.get("/")
    def read_root():
        return {"message": "Hello from FastAPI"}
>>

    Python functions are computations over the module-level state that
    either return a value or raise; the dict returned by the handler is
    a finite map from strings to strings. *)

From stdpp Require Import gmap strings list fin_maps.
From Stdlib Require Import ZArith.
From Stdlib Require Import Ascii String.

Local Open Scope string_scope.
Local Open Scope Z_scope.

(** ** HTTP requests *)

Inductive Method : Type :=
  | GET | HEAD | POST | PUT | DELETE | OPTIONS | PATCH | TRACE.

#[global] Instance Method_eq_dec : EqDecision Method.
Proof. solve_decision. Defined.

Record Request : Type := mkRequest {
  req_method  : Method;
  req_path    : string;
  req_query   : list (string * string);
  req_headers : list (string * string);
  req_body    : string
}.

(** ** The functions this file defines

    [read_root] is the only [def] of the module.  A route refers to its
    endpoint by name, as the module namespace does. *)

Inductive Endpoint : Type :=
  | ReadRoot.

(** ** The application object

    Modelled from the spec: the application object of the hosting
    framework, which is imported and not part of this file.  Of it the
    file uses the display title and the routes registered through the
    decorator; the framework's own default routes and error handling
    are its default behaviour. *)

Record Route : Type := mkRoute {
  route_method   : Method;
  route_path     : string;
  route_endpoint : Endpoint;
  route_status   : Z
}.

Record FastAPI : Type := mkFastAPI {
  title  : string;
  routes : list Route
}.

(** ** Python computations: state passing with exceptions

    The module-level state is the application object.  A call runs
    from a state and ends by returning a value or by raising, in a new
    state. *)

Inductive Exn : Type :=
  | Exception (msg : string).

Inductive Outcome (A : Type) : Type :=
  | Returned (a : A)
  | Raised (e : Exn).
Arguments Returned {A} a.
Arguments Raised {A} e.

Definition Py (A : Type) : Type := FastAPI -> Outcome A * FastAPI.

(** [return v] *)
Definition ret {A : Type} (a : A) : Py A := fun s => (Returned a, s).

(** ** The hosting framework *)

(** Modelled from the spec: the hosting framework ([fastapi], imported
    on line 1 and external to this file).  [FastAPI(title=t)] constructs
    the application instance carrying the display title [t]; no route
    of this file is registered yet. *)
Definition FastAPI_init (t : string) : FastAPI :=
  {| title := t; routes := [] |}.

(** Modelled from the spec: the hosting framework's decorator
    [@self.get(path)].  It registers the decorated function as the
    handler of method GET at [path], answering with status 200, after
    the routes registered before. *)
Definition get (path : string) (e : Endpoint) (self : FastAPI) : FastAPI :=
  {| title := title self;
     routes := routes self ++ [mkRoute GET path e 200] |}.

(** Modelled from the spec: what the hosting framework answers a
    request with: the JSON content a handler
    returned, under the route's status; the framework's treatment of an
    exception a handler raised; or the framework's default
    not-found/method-not-allowed behaviour, which no file of the
    project defines. *)
Inductive Response : Type :=
  | Reply (status : Z) (content : gmap string string)
  | ServerError (e : Exn)
  | FrameworkDefault.

Definition route_matches (req : Request) (r : Route) : bool :=
  bool_decide (route_method r = req_method req)
  && bool_decide (route_path r = req_path req).

(** Modelled from the spec: the hosting framework receives the request,
    dispatches to the handler of the first matching route and answers
    with the value the handler returns.  [ns] is the module namespace
    the endpoints are looked up in.  The handler is called with the
    parameters its signature declares; the handlers of this file
    declare none. *)
Definition handle (ns : Endpoint -> Py (gmap string string))
    (req : Request) (s : FastAPI) : Response * FastAPI :=
  match List.find (route_matches req) (routes s) with
  | None => (FrameworkDefault, s)
  | Some r =>
      match ns (route_endpoint r) s with
      | (Returned v, s') => (Reply (route_status r) v, s')
      | (Raised e, s') => (ServerError e, s')
      end
  end.

(** The requests of a process lifetime, served one after the other. *)
Fixpoint serve (ns : Endpoint -> Py (gmap string string))
    (reqs : list Request) (s : FastAPI) : list Response * FastAPI :=
  match reqs with
  | [] => ([], s)
  | req :: rest =>
      let (resp, s1) := handle ns req s in
      let (resps, s2) := serve ns rest s1 in
      (resp :: resps, s2)
  end.

(** [n] calls of the same function in a row. *)
Fixpoint invoke {A : Type} (n : nat) (f : Py A) (s : FastAPI)
    : list (Outcome A) * FastAPI :=
  match n with
  | O => ([], s)
  | S k =>
      let (o, s1) := f s in
      let (os, s2) := invoke k f s1 in
      (o :: os, s2)
  end.

(** ** The module *)

(** [def read_root(): return {"message": "Hello from FastAPI"}].
    The function declares no parameter; each call evaluates the dict
    display anew. *)
Definition read_root : Py (gmap string string) :=
  ret {[ "message" := "Hello from FastAPI" ]}.

(** The module namespace: the functions of the file by name. *)
Definition call (e : Endpoint) : Py (gmap string string) :=
  match e with
  | ReadRoot => read_root
  end.

(** Module load, lines 3 to 7:
    [app = FastAPI(title="{{PROJECT_NAME}} API")], then
    [@app.get("/")] applied to [read_root]. *)
Definition app : FastAPI :=
  get "/" ReadRoot (FastAPI_init "{{PROJECT_NAME}} API").

(** ** The template text and the generator's substitution *)

(** The placeholder token of the template. *)
Definition PLACEHOLDER : string := "{{PROJECT_NAME}}".

(** The double quote character. *)
Definition dq : string := String (ascii_of_nat 34) EmptyString.

(** The eight lines of the file, as text. *)
Definition template : list string :=
  [ "from fastapi import FastAPI";
    EmptyString;
    "app = FastAPI(title=" +:+ dq +:+ "{{PROJECT_NAME}} API" +:+ dq +:+ ")";
    EmptyString;
    EmptyString;
    "@app.get(" +:+ dq +:+ "/" +:+ dq +:+ ")";
    "def read_root():";
    "    return {" +:+ dq +:+ "message" +:+ dq +:+ ": "
      +:+ dq +:+ "Hello from FastAPI" +:+ dq +:+ "}" ].

(** [occurs tok text]: [tok] stands somewhere in [text]. *)
Fixpoint occurs (tok text : string) : bool :=
  String.prefix tok text
  || match text with
     | EmptyString => false
     | String _ rest => occurs tok rest
     end.

(** One pass over [text] from the left, each occurrence of [tok]
    replaced by [new]; the replacement text is not scanned again.
    [skip] counts the characters of a replaced occurrence still to be
    passed over. *)
Fixpoint replace_from (skip : nat) (tok new text : string) : string :=
  match text with
  | EmptyString => EmptyString
  | String c rest =>
      match skip with
      | S k => replace_from k tok new rest
      | O =>
          if String.prefix tok text
          then new +:+ replace_from (String.length tok - 1) tok new rest
          else String c (replace_from 0 tok new rest)
      end
  end.

(** Modelled from the spec: the external scaffolding generator, which
    is not among the sources.  It replaces the placeholder token by the
    project-supplied name before the file is used. *)
Definition substitute (name text : string) : string :=
  replace_from 0 PLACEHOLDER name text.

(** Modelled from the spec: the generated file, the template with the
    placeholder replaced on every line. *)
Definition generate (name : string) : list string :=
  map (substitute name) template.

(** ** Reading the generated text

    The generated file is text, and Python reads it as text: whether
    line 3 still is [app = FastAPI(title=<one string literal>)], and
    which string the literal denotes, depends on the characters of the
    name.  The reader below follows Python's lexical rules for a short
    string literal in double quotes (delimited by unescaped double
    quotes, no line break inside, backslash escapes) on the part of the
    language it covers, and says so when a text is outside that part.
    It is the Python language that is modelled here, not code of the
    repository. *)

(** The characters as the reader sees them.  Printable ASCII is read;
    of the other characters only the line feed is, as the end of a
    line. *)
Inductive CharClass : Type :=
  | Quote | Backslash | Newline | Plain | Unreadable.

Definition char_class (c : ascii) : CharClass :=
  let n := nat_of_ascii c in
  if (n =? 34)%nat then Quote
  else if (n =? 92)%nat then Backslash
  else if (n =? 10)%nat then Newline
  else if ((32 <=? n) && (n <=? 126))%nat then Plain
  else Unreadable.

Definition readable (c : ascii) : bool :=
  match char_class c with
  | Unreadable => false
  | _ => true
  end.

(** A name every character of which is printable ASCII other than the
    double quote and the backslash. *)
Definition literal_safe (name : string) : bool :=
  forallb (fun c => match char_class c with Plain => true | _ => false end)
    (list_ascii_of_string name).

(** The character a backslash escape denotes, for the one-character
    escapes: a backslash followed by a backslash, a single or a double
    quote, or one of the letters a, b, f, n, r, t, v.  The numeric and
    named escapes, the line continuation and the unrecognised ones are
    not read. *)
Definition unescape (c : ascii) : option ascii :=
  let n := nat_of_ascii c in
  if (n =? 92)%nat then Some c
  else if (n =? 39)%nat then Some c
  else if (n =? 34)%nat then Some c
  else if (n =? 97)%nat then Some (ascii_of_nat 7)
  else if (n =? 98)%nat then Some (ascii_of_nat 8)
  else if (n =? 102)%nat then Some (ascii_of_nat 12)
  else if (n =? 110)%nat then Some (ascii_of_nat 10)
  else if (n =? 114)%nat then Some (ascii_of_nat 13)
  else if (n =? 116)%nat then Some (ascii_of_nat 9)
  else if (n =? 118)%nat then Some (ascii_of_nat 11)
  else None.

(** The outcome of reading a string literal from just after its
    opening quote: the string it denotes and the text after its closing
    quote; a literal that does not end on its line, which Python
    rejects; or a text this reader does not cover. *)
Inductive Literal : Type :=
  | Closed (value rest : string)
  | Unterminated
  | NotRead.

Definition literal_cons (c : ascii) (l : Literal) : Literal :=
  match l with
  | Closed value rest => Closed (String c value) rest
  | Unterminated => Unterminated
  | NotRead => NotRead
  end.

(** [esc] tells that the character before was an escaping backslash. *)
Fixpoint read_literal (esc : bool) (text : string) : Literal :=
  match text with
  | EmptyString => if esc then NotRead else Unterminated
  | String c rest =>
      if esc then
        match unescape c with
        | Some d => literal_cons d (read_literal false rest)
        | None => NotRead
        end
      else
        match char_class c with
        | Quote => Closed EmptyString rest
        | Backslash => read_literal true rest
        | Newline => Unterminated
        | Plain => literal_cons c (read_literal false rest)
        | Unreadable => NotRead
        end
  end.

(** The letters a string prefix ends with ([r], [u], [b], [f], [t] in
    either case): a quote after one of them may open a prefixed
    literal, which is not read. *)
Definition prefix_letter (c : ascii) : bool :=
  existsb (Ascii.eqb c) (list_ascii_of_string "rubftRUBFT").

(** Whether the code after a literal certainly holds a string literal
    that does not end on its line: a plain double quote opens one, the
    next plain double quote closes it, and the text or the line ends
    inside.  Comments, single quotes, backslashes, prefixed and
    triple-quoted literals and further lines are not read: the answer
    is [false] there.  [prev] is the character before. *)
Fixpoint unterminated (in_str : bool) (prev : ascii) (text : string) : bool :=
  match text with
  | EmptyString => in_str
  | String c rest =>
      if in_str then
        match char_class c with
        | Quote => unterminated false c rest
        | Plain => unterminated true c rest
        | Newline => true
        | Backslash | Unreadable => false
        end
      else
        match char_class c with
        | Quote =>
            if prefix_letter prev || String.prefix (dq +:+ dq) rest then false
            else unterminated true c rest
        | Plain =>
            if Ascii.eqb c "#" || Ascii.eqb c "'" then false
            else unterminated false c rest
        | Newline | Backslash | Unreadable => false
        end
  end.

(** [strip_prefix p s]: what follows [p] in [s], when [s] starts with
    [p]. *)
Fixpoint strip_prefix (p s : string) : option string :=
  match p with
  | EmptyString => Some s
  | String a p' =>
      match s with
      | EmptyString => None
      | String b s' => if Ascii.eqb a b then strip_prefix p' s' else None
      end
  end.

(** What loading a generated file gives: the application object module
    load builds, the handlers being those of the template; a text
    Python rejects; or a text this reader does not cover. *)
Inductive Loaded : Type :=
  | Module (a : FastAPI)
  | SyntaxError
  | Unread.

(** Line 3 of a generated file.  After [app = FastAPI(title=] and the
    opening quote the literal is read; when its closing quote is
    followed by the closing parenthesis and nothing else, the line
    constructs the application with the string the literal denotes as
    title (the framework refuses an empty title, which is not read). *)
Definition read_title_line (line : string) : Loaded :=
  if negb (forallb readable (list_ascii_of_string line)) then Unread
  else
    match strip_prefix ("app = FastAPI(title=" +:+ dq) line with
    | None => Unread
    | Some body =>
        if String.prefix (dq +:+ dq) body then Unread
        else
          match read_literal false body with
          | Closed value rest =>
              if String.eqb rest ")" then
                if String.eqb value EmptyString then Unread
                else Module (get "/" ReadRoot (FastAPI_init value))
              else if unterminated false (ascii_of_nat 34) rest then SyntaxError
              else Unread
          | Unterminated => SyntaxError
          | NotRead => Unread
          end
    end.

(** A generated file: the lines other than line 3 are the template's,
    so they define the handler and register the route as the template
    does; line 3 decides the rest. *)
Definition load (file : list string) : Loaded :=
  if bool_decide (<[ 2%nat := EmptyString ]> file
                  = <[ 2%nat := EmptyString ]> template)
  then match file !! 2%nat with
       | Some line => read_title_line line
       | None => Unread
       end
  else Unread.

Example substitute_title_acme :
  substitute "Acme" "{{PROJECT_NAME}} API" = "Acme API".
Proof. reflexivity. Qed.

Example substitute_twice :
  substitute "x" "a{{PROJECT_NAME}}b{{PROJECT_NAME}}{{" = "axbx{{".
Proof. reflexivity. Qed.

Example substitute_not_rescanned :
  substitute "{{PROJECT_NAME}}{{PROJECT_NAME}}" "{{PROJECT_NAME}}!"
  = "{{PROJECT_NAME}}{{PROJECT_NAME}}!".
Proof. reflexivity. Qed.

(** * Properties *)

(** ** The handler and the state *)

Lemma read_root_run (s : FastAPI) :
  read_root s = (Returned {[ "message" := "Hello from FastAPI" ]}, s).
Proof. reflexivity. Qed.

Lemma call_frame (e : Endpoint) (s : FastAPI) : snd (call e s) = s.
Proof. destruct e; reflexivity. Qed.

Section Frame.

Variable ns : Endpoint -> Py (gmap string string).
Hypothesis ns_frame : forall e s, snd (ns e s) = s.

Lemma handle_frame (req : Request) (s : FastAPI) :
  snd (handle ns req s) = s.
Proof.
  unfold handle.
  destruct (List.find (route_matches req) (routes s)) as [r|]; [|reflexivity].
  pose proof (ns_frame (route_endpoint r) s) as Hs.
  destruct (ns (route_endpoint r) s) as [[v|e] s']; simpl in *; assumption.
Qed.

Lemma serve_frame (reqs : list Request) (s : FastAPI) :
  snd (serve ns reqs s) = s.
Proof.
  revert s; induction reqs as [|req rest IH]; intros s; simpl; [reflexivity|].
  pose proof (handle_frame req s) as Hh.
  destruct (handle ns req s) as [resp s1]; simpl in Hh; subst s1.
  specialize (IH s).
  destruct (serve ns rest s) as [resps s2]; simpl in *; assumption.
Qed.

End Frame.

Lemma serve_app (reqs : list Request) : snd (serve call reqs app) = app.
Proof. apply serve_frame, call_frame. Qed.

(** ** Dispatch on the route table of [app] *)

Lemma find_root (req : Request) :
  req_method req = GET -> req_path req = "/" ->
  List.find (route_matches req) (routes app) = Some (mkRoute GET "/" ReadRoot 200).
Proof.
  intros Hm Hp. unfold route_matches; simpl.
  rewrite Hm, Hp. reflexivity.
Qed.

Lemma find_other (req : Request) :
  req_method req <> GET \/ req_path req <> "/" ->
  List.find (route_matches req) (routes app) = None.
Proof.
  intros H. unfold route_matches; simpl.
  destruct H as [H|H].
  - rewrite (bool_decide_eq_false_2 (GET = req_method req)); [reflexivity|congruence].
  - rewrite (bool_decide_eq_false_2 ("/" = req_path req)); [|congruence].
    rewrite andb_false_r. reflexivity.
Qed.

Lemma handle_root (req : Request) :
  req_method req = GET -> req_path req = "/" ->
  handle call req app
  = (Reply 200 {[ "message" := "Hello from FastAPI" ]}, app).
Proof.
  intros Hm Hp. unfold handle. rewrite (find_root req Hm Hp). reflexivity.
Qed.

Lemma handle_other (req : Request) :
  req_method req <> GET \/ req_path req <> "/" ->
  handle call req app = (FrameworkDefault, app).
Proof.
  intros H. unfold handle. rewrite (find_other req H). reflexivity.
Qed.

Lemma invoke_read_root (n : nat) (s : FastAPI) :
  invoke n read_root s
  = (replicate n (Returned {[ "message" := "Hello from FastAPI" ]}), s).
Proof.
  induction n as [|n IH]; simpl; [reflexivity|].
  rewrite IH. reflexivity.
Qed.

Lemma serve_repeated_root (n : nat) (req : Request) :
  req_method req = GET -> req_path req = "/" ->
  serve call (replicate n req) app
  = (replicate n (Reply 200 {[ "message" := "Hello from FastAPI" ]}), app).
Proof.
  intros Hm Hp. induction n as [|n IH]; simpl; [reflexivity|].
  rewrite (handle_root req Hm Hp), IH. reflexivity.
Qed.

Lemma handle_app_no_error (req : Request) (e : Exn) :
  fst (handle call req app) <> ServerError e.
Proof.
  unfold handle.
  destruct (List.find (route_matches req) (routes app)) as [r|]; [|discriminate].
  destruct (route_endpoint r); simpl. discriminate.
Qed.

Lemma serve_app_no_error (reqs : list Request) :
  Forall (fun resp => forall e, resp <> ServerError e) (fst (serve call reqs app)).
Proof.
  induction reqs as [|req rest IH]; simpl; [constructor|].
  pose proof (handle_app_no_error req) as Hne.
  pose proof (handle_frame call call_frame req app) as Hs.
  destruct (handle call req app) as [resp s1]; simpl in *; subst s1.
  destruct (serve call rest app) as [resps s2]; simpl in *.
  constructor; assumption.
Qed.

(** ** The claims about the running application *)

(** C1. Every HTTP GET request to the root path, whatever was served
    before it, is answered with status 200 and the JSON content
    [{"message": "Hello from FastAPI"}]. *)
Theorem get_root_status_and_body (before : list Request) (req : Request) :
  req_method req = GET -> req_path req = "/" ->
  fst (handle call req (snd (serve call before app)))
  = Reply 200 {[ "message" := "Hello from FastAPI" ]}.
Proof.
  intros Hm Hp. rewrite serve_app, (handle_root req Hm Hp). reflexivity.
Qed.

Lemma get_root_status_and_body_witness :
  let req :=
    mkRequest GET "/" [("verbose", "1")] [("Accept", "text/html")] "ping" in
  let before := [mkRequest POST "/items" [] [] EmptyString; req] in
  req_method req = GET /\ req_path req = "/"
  /\ fst (handle call req (snd (serve call before app)))
     = Reply 200 {[ "message" := "Hello from FastAPI" ]}.
Proof.
  intros req before.
  split; [reflexivity|]. split; [reflexivity|].
  apply (get_root_status_and_body before req); reflexivity.
Defined.

(** C2. The root handler is idempotent and free of side effects: any
    number of calls in a row return the same value each and end in the
    state they started from; the value does not depend on the state;
    and the same holds for the responses to a repeated [GET /]. *)
Theorem read_root_idempotent (n : nat) (s s' : FastAPI)
    (query headers : list (string * string)) (body : string) :
  invoke n read_root s
  = (replicate n (Returned {[ "message" := "Hello from FastAPI" ]}), s)
  /\ fst (read_root s) = fst (read_root s')
  /\ snd (read_root s) = s
  /\ serve call (replicate n (mkRequest GET "/" query headers body)) app
     = (replicate n (Reply 200 {[ "message" := "Hello from FastAPI" ]}), app).
Proof.
  split; [apply invoke_read_root|].
  split; [reflexivity|].
  split; [reflexivity|].
  apply serve_repeated_root; reflexivity.
Qed.

(** C3. The response to [GET /] does not depend on the request: two
    requests to the root path with method GET, whatever their query
    parameters, headers and bodies, get identical responses. *)
Theorem root_response_independent_of_request (r1 r2 : Request) :
  req_method r1 = GET -> req_path r1 = "/" ->
  req_method r2 = GET -> req_path r2 = "/" ->
  handle call r1 app = handle call r2 app.
Proof.
  intros Hm1 Hp1 Hm2 Hp2.
  rewrite (handle_root r1 Hm1 Hp1), (handle_root r2 Hm2 Hp2). reflexivity.
Qed.

Lemma root_response_independent_of_request_witness :
  let r1 := mkRequest GET "/" [] [] EmptyString in
  let r2 :=
    mkRequest GET "/" [("page", "2")] [("Authorization", "Bearer t")] "{}" in
  r1 <> r2
  /\ req_method r1 = GET /\ req_path r1 = "/"
  /\ req_method r2 = GET /\ req_path r2 = "/"
  /\ handle call r1 app = handle call r2 app.
Proof.
  intros r1 r2.
  split; [discriminate|].
  repeat (split; [reflexivity|]).
  apply (root_response_independent_of_request r1 r2); reflexivity.
Defined.

(** C4. The payload the root handler returns is a mapping with exactly
    one entry, the fixed key ["message"] with the fixed value
    ["Hello from FastAPI"]; no other key is bound. *)
Theorem read_root_single_pair (s : FastAPI) :
  exists d : gmap string string,
    fst (read_root s) = Returned d
    /\ size d = 1%nat
    /\ map_to_list d = [("message", "Hello from FastAPI")]
    /\ forall k : string,
         d !! k = if decide (k = "message") then Some "Hello from FastAPI" else None.
Proof.
  exists {[ "message" := "Hello from FastAPI" ]}.
  split; [reflexivity|].
  split; [apply map_size_singleton|].
  split; [apply map_to_list_singleton|].
  intros k. destruct (decide (k = "message")) as [->|Hk].
  - apply lookup_singleton_eq.
  - apply lookup_singleton_ne. congruence.
Qed.

(** C5. The title the application is constructed with is the template
    text as it stands, placeholder token included: construction keeps
    the title it is given, line 3 of the file passes that text, and
    nothing served later changes it. *)
Theorem title_is_unsubstituted_template (t : string) (reqs : list Request) :
  title app = "{{PROJECT_NAME}} API"
  /\ occurs PLACEHOLDER (title app) = true
  /\ template !! 2%nat
     = Some ("app = FastAPI(title=" +:+ dq +:+ title app +:+ dq +:+ ")")
  /\ title (get "/" ReadRoot (FastAPI_init t)) = t
  /\ title (snd (serve call reqs app)) = "{{PROJECT_NAME}} API".
Proof.
  split; [reflexivity|].
  split; [reflexivity|].
  split; [reflexivity|].
  split; [reflexivity|].
  rewrite serve_app. reflexivity.
Qed.

(** C6. The file registers exactly one route, method GET on path [/],
    bound to the only handler the file defines; a request with another
    method or another path matches no route and gets the framework's
    default behaviour. *)
Theorem single_route_get_root (req : Request) :
  req_method req <> GET \/ req_path req <> "/" ->
  routes app = [mkRoute GET "/" ReadRoot 200]
  /\ (forall e : Endpoint, e = ReadRoot)
  /\ List.find (route_matches req) (routes app) = None
  /\ handle call req app = (FrameworkDefault, app).
Proof.
  intros H.
  split; [reflexivity|].
  split; [intros []; reflexivity|].
  split; [apply find_other, H|].
  apply handle_other, H.
Qed.

Lemma single_route_get_root_witness :
  let req := mkRequest POST "/" [] [] "x=1" in
  (req_method req <> GET \/ req_path req <> "/")
  /\ routes app = [mkRoute GET "/" ReadRoot 200]
  /\ (forall e : Endpoint, e = ReadRoot)
  /\ List.find (route_matches req) (routes app) = None
  /\ handle call req app = (FrameworkDefault, app).
Proof.
  intros req.
  assert (H : req_method req <> GET \/ req_path req <> "/")
    by (left; simpl; discriminate).
  split; [exact H|].
  apply (single_route_get_root req H).
Defined.

(** C7. The root handler never fails: from every state it returns its
    fixed payload and does not raise, and no request served by the
    application is answered with a handler's exception. *)
Theorem read_root_never_raises (s : FastAPI) (reqs : list Request) :
  fst (read_root s) = Returned {[ "message" := "Hello from FastAPI" ]}
  /\ (forall e : Exn, fst (read_root s) <> Raised e)
  /\ Forall (fun resp => forall e, resp <> ServerError e)
       (fst (serve call reqs app)).
Proof.
  split; [reflexivity|].
  split; [intros e; simpl; discriminate|].
  apply serve_app_no_error.
Qed.

(** C8. The application object is the module-level state, built once by
    module load; no function the file defines changes it, from any
    state, and after any sequence of served requests it is the object
    module load built. *)
Theorem app_unchanged_after_load (e : Endpoint) (s : FastAPI)
    (reqs : list Request) :
  snd (call e s) = s
  /\ snd (read_root s) = s
  /\ snd (serve call reqs app) = app
  /\ snd (serve call reqs app) = get "/" ReadRoot (FastAPI_init "{{PROJECT_NAME}} API").
Proof.
  split; [apply call_frame|].
  split; [reflexivity|].
  split; [apply serve_app|].
  rewrite serve_app. reflexivity.
Qed.

(** Module load changes the object the constructor returned: it adds
    the route.  This is the one change, and it precedes every request. *)
Lemma load_registers_route :
  routes (FastAPI_init "{{PROJECT_NAME}} API") = []
  /\ routes app = (routes (FastAPI_init "{{PROJECT_NAME}} API")
                   ++ [mkRoute GET "/" ReadRoot 200])%list.
Proof. split; reflexivity. Qed.

(** ** Substitution of the placeholder *)

Lemma string_length_app (a b : string) :
  String.length (a +:+ b) = (String.length a + String.length b)%nat.
Proof. induction a as [|c a IH]; simpl; [reflexivity|]. rewrite IH. reflexivity. Qed.

Lemma occurs_cons (tok : string) (c : ascii) (rest : string) :
  occurs tok (String c rest) = String.prefix tok (String c rest) || occurs tok rest.
Proof. reflexivity. Qed.

Lemma replace_from_0_cons (tok new : string) (c : ascii) (rest : string) :
  replace_from 0 tok new (String c rest)
  = if String.prefix tok (String c rest)
    then new +:+ replace_from (String.length tok - 1) tok new rest
    else String c (replace_from 0 tok new rest).
Proof. reflexivity. Qed.

(** A text in which the token does not stand is left as it is. *)
Lemma replace_absent (tok new text : string) :
  occurs tok text = false -> replace_from 0 tok new text = text.
Proof.
  induction text as [|c rest IH]; intros H; [reflexivity|].
  rewrite occurs_cons in H. apply orb_false_elim in H as [Hp Ho].
  rewrite replace_from_0_cons, Hp, (IH Ho). reflexivity.
Qed.

Lemma substitute_absent (name text : string) :
  occurs PLACEHOLDER text = false -> substitute name text = text.
Proof. apply replace_absent. Qed.

Lemma substitute_title (name : string) :
  substitute name "{{PROJECT_NAME}} API" = name +:+ " API".
Proof. reflexivity. Qed.

(** Only line 3 of the generated file differs from the template. *)
Lemma generate_lines (name : string) :
  generate name
  = <[ 2%nat := "app = FastAPI(title=" +:+ dq +:+ name +:+ " API" +:+ dq +:+ ")" ]>
      template.
Proof. reflexivity. Qed.

(** * Further properties *)

(** ** Requests do not interfere *)

Lemma serve_app_map (reqs : list Request) :
  serve call reqs app = (map (fun r => fst (handle call r app)) reqs, app).
Proof.
  induction reqs as [|req rest IH]; simpl; [reflexivity|].
  pose proof (handle_frame call call_frame req app) as Hs.
  destruct (handle call req app) as [resp s1]; simpl in *; subst s1.
  rewrite IH. reflexivity.
Qed.

(** X1. The answer to a request does not depend on the requests served
    before or after it: a sequence of requests gets, position by
    position, the answers each request gets alone from the freshly
    loaded application, and two sequences served back to back get the
    answers of the first followed by the answers of the second. *)
Theorem responses_history_independent (reqs1 reqs2 : list Request) :
  fst (serve call reqs1 app) = map (fun r => fst (handle call r app)) reqs1
  /\ serve call (reqs1 ++ reqs2)%list app
     = ((fst (serve call reqs1 app) ++ fst (serve call reqs2 app))%list, app).
Proof.
  rewrite !serve_app_map; simpl.
  split; [reflexivity|]. rewrite map_app. reflexivity.
Qed.

(** ** Occurrences of a token across a boundary *)

Lemma string_app_nil (y : string) : EmptyString +:+ y = y.
Proof. reflexivity. Qed.

Lemma string_app_cons (c : ascii) (x y : string) :
  String c x +:+ y = String c (x +:+ y).
Proof. reflexivity. Qed.

(** A character that is not in the token ends every match: what
    follows it cannot complete an occurrence begun before it. *)
Lemma prefix_app_other (tok x b : string) (c : ascii) :
  Forall (fun t => t <> c) (list_ascii_of_string tok) ->
  String.prefix tok (x +:+ String c b) = String.prefix tok x.
Proof.
  revert x; induction tok as [|t tok IH]; intros x Hall.
  - destruct x; reflexivity.
  - simpl in Hall. apply Forall_cons in Hall as [Ht Hall].
    destruct x as [|a x].
    + rewrite string_app_nil. simpl.
      destruct (ascii_dec t c) as [E|_]; [contradiction|reflexivity].
    + rewrite string_app_cons. simpl.
      destruct (ascii_dec t a); [apply IH, Hall|reflexivity].
Qed.

Lemma occurs_app_other (tok x b : string) (c : ascii) :
  Forall (fun t => t <> c) (list_ascii_of_string tok) ->
  occurs tok (x +:+ String c b) = occurs tok x || occurs tok (String c b).
Proof.
  intros Hall. induction x as [|a x IH].
  - rewrite string_app_nil. destruct tok; reflexivity.
  - rewrite string_app_cons, !occurs_cons, IH.
    rewrite <- string_app_cons, (prefix_app_other tok (String a x) b c Hall).
    rewrite orb_assoc. reflexivity.
Qed.

Lemma placeholder_has_no_space :
  Forall (fun t => t <> " "%char) (list_ascii_of_string PLACEHOLDER).
Proof. repeat (constructor; [discriminate|]). constructor. Qed.

Lemma prefix_cons (t c : ascii) (tok rest : string) :
  String.prefix (String t tok) (String c rest)
  = if ascii_dec t c then String.prefix tok rest else false.
Proof. reflexivity. Qed.

(** A leading character other than the token's first cannot start an
    occurrence. *)
Lemma occurs_placeholder_skip (c : ascii) (rest : string) :
  c <> "{"%char ->
  occurs PLACEHOLDER (String c rest) = occurs PLACEHOLDER rest.
Proof.
  intros Hc. rewrite occurs_cons.
  change PLACEHOLDER with (String "{"%char "{PROJECT_NAME}}") at 1.
  rewrite prefix_cons.
  destruct (ascii_dec "{" c) as [E|_]; [congruence|reflexivity].
Qed.

(** Line 3 of the generated file holds the token exactly when the
    substituted name does: the quote before the name and the space
    after it are not part of any occurrence. *)
Lemma occurs_generated_title_line (name : string) :
  occurs PLACEHOLDER
    ("app = FastAPI(title=" +:+ dq +:+ name +:+ " API" +:+ dq +:+ ")")
  = occurs PLACEHOLDER name.
Proof.
  unfold dq.
  repeat (rewrite ?string_app_cons, ?string_app_nil;
          rewrite occurs_placeholder_skip by discriminate).
  change (" API" +:+ String (ascii_of_nat 34) EmptyString +:+ ")")
    with (String " "%char ("API" +:+ String (ascii_of_nat 34) EmptyString +:+ ")")).
  rewrite (occurs_app_other _ _ _ _ placeholder_has_no_space).
  rewrite orb_false_r. reflexivity.
Qed.

(** The lines of the template other than line 3 hold no token. *)
Lemma generate_occurs (name : string) :
  map (occurs PLACEHOLDER) (generate name)
  = [false; false; occurs PLACEHOLDER name; false; false; false; false; false].
Proof.
  rewrite generate_lines. unfold template.
  cbn -[occurs String.append dq].
  rewrite occurs_generated_title_line. reflexivity.
Qed.

(** X2. When the project name itself holds no placeholder token, the
    generated file holds none on any line: the substitution resolves
    the template completely, and substituting again, with any name,
    changes nothing. *)
Theorem generate_resolves_placeholder (name name' : string) :
  occurs PLACEHOLDER name = false ->
  Forall (fun line => occurs PLACEHOLDER line = false) (generate name)
  /\ map (substitute name') (generate name) = generate name.
Proof.
  intros Hname.
  assert (Hall : Forall (fun line => occurs PLACEHOLDER line = false)
                   (generate name)).
  { refine (proj1 (Forall_fmap (occurs PLACEHOLDER)
                       (fun b : bool => b = false) (generate name)) _).
    change (Forall (fun b : bool => b = false)
              (map (occurs PLACEHOLDER) (generate name))).
    rewrite generate_occurs, Hname. repeat constructor. }
  split; [exact Hall|].
  induction Hall as [|line rest Hline _ IH]; simpl; [reflexivity|].
  rewrite (substitute_absent name' line Hline), IH. reflexivity.
Qed.

Lemma generate_resolves_placeholder_witness :
  occurs PLACEHOLDER "Acme" = false
  /\ Forall (fun line => occurs PLACEHOLDER line = false) (generate "Acme")
  /\ map (substitute "{{PROJECT_NAME}}x") (generate "Acme") = generate "Acme".
Proof.
  split; [reflexivity|].
  apply (generate_resolves_placeholder "Acme" "{{PROJECT_NAME}}x"); reflexivity.
Defined.

(** ** The project name can be read back *)

Lemma string_app_inv_tail (a b s : string) : a +:+ s = b +:+ s -> a = b.
Proof.
  revert b; induction a as [|c a IH]; intros [|d b] H.
  - reflexivity.
  - apply (f_equal String.length) in H.
    rewrite string_app_nil, string_app_cons in H; simpl in H.
    rewrite string_length_app in H. lia.
  - apply (f_equal String.length) in H.
    rewrite string_app_nil, string_app_cons in H; simpl in H.
    rewrite string_length_app in H. lia.
  - rewrite !string_app_cons in H. injection H as -> H.
    f_equal. apply IH, H.
Qed.

Lemma title_line_injective (n1 n2 : string) :
  "app = FastAPI(title=" +:+ dq +:+ n1 +:+ " API" +:+ dq +:+ ")"
  = "app = FastAPI(title=" +:+ dq +:+ n2 +:+ " API" +:+ dq +:+ ")" ->
  n1 = n2.
Proof.
  intros H.
  apply (inj (String.append _)) in H.
  apply (inj (String.append _)) in H.
  apply string_app_inv_tail in H. exact H.
Qed.

Lemma generate_title_line (name : string) :
  generate name !! 2%nat
  = Some ("app = FastAPI(title=" +:+ dq +:+ name +:+ " API" +:+ dq +:+ ")").
Proof. reflexivity. Qed.

Lemma Some_eq_inv {A : Type} (x y : A) : Some x = Some y -> x = y.
Proof. intros H. injection H as H. exact H. Qed.

(** ** The generated file as Python reads it *)

Lemma list_ascii_of_string_app (a b : string) :
  list_ascii_of_string (a +:+ b)
  = (list_ascii_of_string a ++ list_ascii_of_string b)%list.
Proof.
  induction a as [|c a IH]; [reflexivity|].
  rewrite string_app_cons. simpl. rewrite IH. reflexivity.
Qed.

Lemma string_app_assoc (a b c : string) : (a +:+ b) +:+ c = a +:+ b +:+ c.
Proof.
  induction a as [|x a IH]; [reflexivity|].
  rewrite !string_app_cons, IH. reflexivity.
Qed.

Lemma literal_safe_app (a b : string) :
  literal_safe (a +:+ b) = literal_safe a && literal_safe b.
Proof.
  unfold literal_safe. rewrite list_ascii_of_string_app. apply forallb_app.
Qed.

Lemma literal_safe_cons (c : ascii) (s : string) :
  literal_safe (String c s) = true ->
  char_class c = Plain /\ literal_safe s = true.
Proof.
  unfold literal_safe; simpl. intros H.
  apply andb_prop in H as [Hc Hs]. split; [|exact Hs].
  destruct (char_class c); solve [reflexivity | discriminate].
Qed.

Lemma literal_safe_readable (s : string) :
  literal_safe s = true -> forallb readable (list_ascii_of_string s) = true.
Proof.
  induction s as [|c s IH]; intros H; [reflexivity|].
  apply literal_safe_cons in H as [Hc Hs]. simpl.
  unfold readable at 1. rewrite Hc. apply IH, Hs.
Qed.

(** A safe text before a double quote is a literal that denotes
    itself. *)
Lemma read_literal_safe (s rest : string) :
  literal_safe s = true ->
  read_literal false (s +:+ dq +:+ rest) = Closed s rest.
Proof.
  induction s as [|c s IH]; intros H; [reflexivity|].
  apply literal_safe_cons in H as [Hc Hs].
  rewrite string_app_cons. simpl. rewrite Hc, (IH Hs). reflexivity.
Qed.

Lemma plain_not_quote (c : ascii) :
  char_class c = Plain -> c <> ascii_of_nat 34.
Proof. intros Hc ->. discriminate Hc. Qed.

Lemma strip_prefix_app (p s : string) : strip_prefix p (p +:+ s) = Some s.
Proof.
  induction p as [|a p IH]; [reflexivity|].
  rewrite string_app_cons. simpl. rewrite Ascii.eqb_refl. exact IH.
Qed.

Lemma read_title_line_safe (name : string) :
  literal_safe name = true ->
  read_title_line
    ("app = FastAPI(title=" +:+ dq +:+ name +:+ " API" +:+ dq +:+ ")")
  = Module (get "/" ReadRoot (FastAPI_init (name +:+ " API"))).
Proof.
  intros Hsafe. unfold read_title_line.
  assert (Hread : forallb readable
            (list_ascii_of_string
               ("app = FastAPI(title=" +:+ dq +:+ name +:+ " API" +:+ dq +:+ ")"))
          = true).
  { rewrite !list_ascii_of_string_app, !forallb_app.
    rewrite (literal_safe_readable name Hsafe). reflexivity. }
  rewrite Hread; clear Hread. cbn [negb].
  rewrite <- (string_app_assoc "app = FastAPI(title=" dq), strip_prefix_app.
  assert (Htriple : String.prefix (dq +:+ dq) (name +:+ " API" +:+ dq +:+ ")")
                    = false).
  { destruct name as [|c name]; [reflexivity|].
    apply literal_safe_cons in Hsafe as [Hc _].
    rewrite string_app_cons. unfold dq at 1. rewrite string_app_cons, prefix_cons.
    destruct (ascii_dec (ascii_of_nat 34) c) as [E|_]; [|reflexivity].
    symmetry in E. exfalso. exact (plain_not_quote c Hc E). }
  rewrite Htriple; clear Htriple.
  rewrite <- (string_app_assoc name " API").
  rewrite read_literal_safe
    by (rewrite literal_safe_app, Hsafe; reflexivity).
  change (String.eqb ")" ")") with true. cbn iota.
  destruct name; reflexivity.
Qed.

Lemma load_generate (name : string) :
  load (generate name)
  = read_title_line
      ("app = FastAPI(title=" +:+ dq +:+ name +:+ " API" +:+ dq +:+ ")").
Proof.
  unfold load. rewrite generate_title_line.
  rewrite bool_decide_eq_true_2; [reflexivity|].
  rewrite generate_lines. apply list_insert_insert_eq.
Qed.

Lemma load_generate_safe (name : string) :
  literal_safe name = true ->
  load (generate name) = Module (get "/" ReadRoot (FastAPI_init (name +:+ " API"))).
Proof. intros H. rewrite load_generate. apply read_title_line_safe, H. Qed.

(** The responses depend on the route table, not on the title. *)
Lemma handle_any_title (t : string) (req : Request) :
  fst (handle call req (get "/" ReadRoot (FastAPI_init t)))
  = fst (handle call req app).
Proof.
  unfold handle.
  change (routes (get "/" ReadRoot (FastAPI_init t))) with (routes app).
  destruct (List.find (route_matches req) (routes app)) as [r|]; [|reflexivity].
  destruct (route_endpoint r); reflexivity.
Qed.

(** ** The claims about the generator's substitution *)

(** C9, as amended.  The message literal contains no placeholder token
    and the substitution changes no line of the file but line 3, for
    every name.  For every project name made of printable ASCII
    characters other than the double quote and the backslash, the
    generated file loads, and every request, [GET /] among them, gets
    the response the template gives. *)
Theorem body_same_for_safe_project_name (name : string) (req : Request) :
  occurs PLACEHOLDER "Hello from FastAPI" = false
  /\ substitute name "Hello from FastAPI" = "Hello from FastAPI"
  /\ generate name
     = <[ 2%nat := "app = FastAPI(title=" +:+ dq +:+ name +:+ " API" +:+ dq +:+ ")" ]>
         template
  /\ (literal_safe name = true ->
      exists a : FastAPI,
        load (generate name) = Module a
        /\ fst (handle call req a) = fst (handle call req app)
        /\ fst (handle call
                  (mkRequest GET "/" (req_query req) (req_headers req) (req_body req))
                  a)
           = Reply 200 {[ "message" := "Hello from FastAPI" ]}).
Proof.
  split; [reflexivity|].
  split; [apply substitute_absent; reflexivity|].
  split; [apply generate_lines|].
  intros Hsafe.
  exists (get "/" ReadRoot (FastAPI_init (name +:+ " API"))).
  split; [apply load_generate_safe, Hsafe|].
  split; [apply handle_any_title|].
  rewrite handle_any_title, handle_root; reflexivity.
Qed.

Lemma body_same_for_safe_project_name_witness :
  let name := "Corner Shop 2" in
  let req := mkRequest GET "/" [("lang", "en")] [] EmptyString in
  literal_safe name = true
  /\ exists a : FastAPI,
       load (generate name) = Module a
       /\ fst (handle call req a) = Reply 200 {[ "message" := "Hello from FastAPI" ]}.
Proof.
  intros name req.
  split; [reflexivity|].
  destruct (body_same_for_safe_project_name name req) as (_ & _ & _ & Hsafe).
  destruct (Hsafe eq_refl) as (a & Hload & _ & Hroot).
  exists a. split; [exact Hload | exact Hroot].
Defined.

(** C9 as stated fails: not every name leaves a file that answers
    [GET /].  With the three-character name [A], double quote, [B] the
    title literal of line 3 ends after [A], and the quote that closed
    the literal in the template opens one that does not end on its
    line: Python rejects the file. *)
Lemma body_lost_for_name_with_quote :
  load (generate ("A" +:+ dq +:+ "B")) = SyntaxError
  /\ ~ (forall name : string,
          exists a : FastAPI,
            load (generate name) = Module a
            /\ fst (handle call (mkRequest GET "/" [] [] EmptyString) a)
               = Reply 200 {[ "message" := "Hello from FastAPI" ]}).
Proof.
  assert (H : load (generate ("A" +:+ dq +:+ "B")) = SyntaxError)
    by (vm_compute; reflexivity).
  split; [exact H|].
  intros Hall. destruct (Hall ("A" +:+ dq +:+ "B")) as (a & Ha & _).
  rewrite H in Ha. discriminate Ha.
Qed.

(** C10, as amended.  The title literal is the placeholder followed by
    the suffix [ API], and the text substituted for it is the name
    followed by [ API], for every name.  For every project name made of
    printable ASCII characters other than the double quote and the
    backslash, the generated file loads with that text as the title of
    the application: the name followed by [ API], not the bare name. *)
Theorem title_is_safe_name_with_suffix (name : string) :
  title app = PLACEHOLDER +:+ " API"
  /\ substitute name (title app) = name +:+ " API"
  /\ generate name !! 2%nat
     = Some ("app = FastAPI(title=" +:+ dq +:+ name +:+ " API" +:+ dq +:+ ")")
  /\ (literal_safe name = true ->
      exists a : FastAPI,
        load (generate name) = Module a /\ title a = name +:+ " API")
  /\ name +:+ " API" <> name.
Proof.
  split; [reflexivity|].
  split; [apply substitute_title|].
  split; [apply generate_title_line|].
  split.
  - intros Hsafe.
    exists (get "/" ReadRoot (FastAPI_init (name +:+ " API"))).
    split; [apply load_generate_safe, Hsafe | reflexivity].
  - intros H. apply (f_equal String.length) in H.
    rewrite string_length_app in H. simpl in H. lia.
Qed.

Lemma title_is_safe_name_with_suffix_witness :
  literal_safe "Acme Books" = true
  /\ (exists a : FastAPI,
        load (generate "Acme Books") = Module a /\ title a = "Acme Books API")
  /\ "Acme Books API" <> "Acme Books".
Proof.
  split; [reflexivity|].
  destruct (title_is_safe_name_with_suffix "Acme Books")
    as (_ & _ & _ & Hload & Hne).
  split; [exact (Hload eq_refl) | exact Hne].
Defined.

(** C10 as stated fails: with the four-character name [a], backslash,
    [n], [b] the generated file loads, and the title literal denotes
    [a], a line feed, [b] and the suffix: seven characters, not the
    name followed by [ API]. *)
Lemma title_differs_for_name_with_escape :
  load (generate ("a" +:+ String (ascii_of_nat 92) "nb"))
  = Module (get "/" ReadRoot
              (FastAPI_init ("a" +:+ String (ascii_of_nat 10) "b API")))
  /\ ~ (forall (name : string) (a : FastAPI),
          load (generate name) = Module a -> title a = name +:+ " API").
Proof.
  assert (H : load (generate ("a" +:+ String (ascii_of_nat 92) "nb"))
              = Module (get "/" ReadRoot
                          (FastAPI_init ("a" +:+ String (ascii_of_nat 10) "b API"))))
    by (vm_compute; reflexivity).
  split; [exact H|].
  intros Hall. specialize (Hall _ _ H).
  apply (f_equal String.length) in Hall. vm_compute in Hall. discriminate Hall.
Qed.

(** ** Names and titles *)

(** X3. Different project names give different generated files; and
    when both names are made of printable ASCII characters other than
    the double quote and the backslash, the two files load with
    different titles. *)
Theorem generate_distinguishes_names (n1 n2 : string) :
  n1 <> n2 ->
  generate n1 <> generate n2
  /\ (literal_safe n1 = true -> literal_safe n2 = true ->
      exists a1 a2 : FastAPI,
        load (generate n1) = Module a1
        /\ load (generate n2) = Module a2
        /\ title a1 <> title a2).
Proof.
  intros Hne. split.
  - intros H. apply Hne.
    pose proof (generate_title_line n1) as H1.
    rewrite H, generate_title_line in H1.
    apply Some_eq_inv in H1. symmetry. apply title_line_injective, H1.
  - intros H1 H2.
    exists (get "/" ReadRoot (FastAPI_init (n1 +:+ " API"))),
           (get "/" ReadRoot (FastAPI_init (n2 +:+ " API"))).
    split; [apply load_generate_safe, H1|].
    split; [apply load_generate_safe, H2|].
    intros H. apply Hne.
    change (n1 +:+ " API" = n2 +:+ " API") in H.
    apply string_app_inv_tail in H. exact H.
Qed.

Lemma generate_distinguishes_names_witness :
  "Acme" <> "Acme API"
  /\ literal_safe "Acme" = true /\ literal_safe "Acme API" = true
  /\ generate "Acme" <> generate "Acme API"
  /\ exists a1 a2 : FastAPI,
       load (generate "Acme") = Module a1
       /\ load (generate "Acme API") = Module a2
       /\ title a1 <> title a2.
Proof.
  assert (H : "Acme" <> "Acme API") by discriminate.
  split; [exact H|].
  split; [reflexivity|]. split; [reflexivity|].
  destruct (generate_distinguishes_names "Acme" "Acme API" H) as [Hfiles Htitles].
  split; [exact Hfiles|].
  exact (Htitles eq_refl eq_refl).
Defined.
